(** * Session orchestration and human escalation: a shallow embedding

    The socket server of the repository keeps three module-level [Map]s
    (active sessions, the connection of each session, escalated calls) and
    drives them from WebSocket message handlers.  This file embeds

    - [store/sessionStore.js] and [store/escalationStore.js],
    - [utils/broadcaster.js],
    - the session and escalation handlers,
    - the chunk ordering of [services/pythonBackend.js],
    - the control-signal part of the voice client
      ([services/voiceSocket.js] and the voicebot page),

    and proves the properties the design document states about them.

    Conventions.  A JavaScript [Map] is an association list in insertion
    order.  Arrays that are shared between objects (a session's
    [chatHistory]) live in a store of arrays addressed by allocation index,
    so that aliasing is visible.  Numbers that are recognition confidences
    are binary64 floats, as in JavaScript.  Reads of the clock and of the
    random generator are answered by an environment [Env], indexed by the
    number of reads made so far. *)

From Stdlib Require Import List String Ascii Bool Arith ZArith Lia.
From Stdlib Require Import Floats Uint63 Permutation Sorted DecimalString.
Import ListNotations.

Set Warnings "-inexact-float".
Local Open Scope string_scope.
Local Open Scope list_scope.

(** ** JavaScript helpers *)

Module Js.

(** [x || d] on a string that may be absent: [undefined], [null] and the
    empty string are falsy. *)
Definition or_string (x : option string) (d : string) : string :=
  match x with
  | Some s => if String.eqb s "" then d else s
  | None => d
  end.

(** [x || null] on a string that may be absent. *)
Definition or_null_string (x : option string) : option string :=
  match x with
  | Some s => if String.eqb s "" then None else Some s
  | None => None
  end.

(** Truthiness of a number: [0], [-0] and [NaN] are falsy. *)
Definition truthy_number (f : float) : bool :=
  negb (PrimFloat.eqb f 0%float || PrimFloat.is_nan f).

(** [x || null] on a number that may be absent. *)
Definition or_null_number (x : option float) : option float :=
  match x with
  | Some f => if truthy_number f then Some f else None
  | None => None
  end.

(** [x ?? d]: only [null] and [undefined] give way to [d]. *)
Definition nullish {A : Type} (x : option A) (d : option A) : option A :=
  match x with
  | Some _ => x
  | None => d
  end.

(** An array length as a number. *)
Definition number_of_nat (n : nat) : float :=
  PrimFloat.of_uint63 (Uint63.of_Z (Z.of_nat n)).

End Js.

(** ** [Map]: an association list in insertion order *)

Module JsMap.

Definition t (V : Type) : Type := list (string * V).

Definition empty {V : Type} : t V := [].

Fixpoint get {V : Type} (k : string) (m : t V) : option V :=
  match m with
  | [] => None
  | (k', v) :: m' => if String.eqb k' k then Some v else get k m'
  end.

Definition has {V : Type} (k : string) (m : t V) : bool :=
  match get k m with
  | Some _ => true
  | None => false
  end.

(** [set] on a key that is present replaces the value where it stands;
    a new key goes to the end. *)
Fixpoint set {V : Type} (k : string) (v : V) (m : t V) : t V :=
  match m with
  | [] => [(k, v)]
  | (k', v') :: m' =>
      if String.eqb k' k then (k, v) :: m' else (k', v') :: set k v m'
  end.

Definition delete {V : Type} (k : string) (m : t V) : t V :=
  filter (fun kv => negb (String.eqb (fst kv) k)) m.

(** [Array.from(m.values())]. *)
Definition values {V : Type} (m : t V) : list V := map snd m.

Definition keys {V : Type} (m : t V) : list string := map fst m.

End JsMap.

(** ** Data model *)

(** A conversation turn as the stores see it: [{ sender, text, timestamp,
    confidence?, tool? }]. *)
Record Message : Type := mkMessage {
  m_sender : string;
  m_text : string;
  m_timestamp : option string;
  m_confidence : option float;
  m_tool : option string
}.

(** An audio chunk: [{ data, index, timestamp }]. *)
Record Chunk : Type := mkChunk {
  c_data : string;
  c_index : Z;
  c_timestamp : Z
}.

(** A reference to an array of turns in the store of arrays. *)
Definition ArrayRef : Type := nat.

(** A WebSocket connection, named by a number. *)
Definition WebSocket : Type := nat.

Record Session : Type := mkSession {
  s_id : string;
  s_type : option string;
  s_startTime : string;
  s_audioChunks : list Chunk;
  s_chatHistory : ArrayRef
}.

Record Stats : Type := mkStats {
  st_totalTurns : nat;
  st_userMessages : nat;
  st_botMessages : nat;
  st_lowConfidenceCount : nat;
  st_avgConfidence : option float
}.

Record Escalation : Type := mkEscalation {
  e_id : string;
  e_sessionId : string;
  e_type : option string;
  e_reason : string;
  e_history : ArrayRef;
  e_metrics : string;
  e_avgConfidence : option float;
  e_summary : string;
  e_status : string;
  e_createdAt : string;
  e_resolvedAt : option string;
  e_resolvedBy : option string;
  e_customerPhone : option string;
  e_customerName : option string;
  e_stats : Stats
}.

(** What the server writes to a connection.  A payload is serialised when
    it is sent, so it carries the contents of the arrays it mentions as
    they are at that moment. *)
Inductive ServerMsg : Type :=
| ERROR (message : string)
| SESSION_STARTED (session : Session) (chatHistory : list Message)
| SESSION_ENDED (id : string)
| ESCALATION_EXISTS (escalationId : string)
| ESCALATION_TRIGGERED (escalationId : string) (message : string)
| ESCALATION_NEW (escalation : Escalation) (history : list Message)
| ESCALATION_UPDATED (escalation : Escalation) (history : list Message)
| ESCALATION_RESOLVED_ALL (escalationId : string) (resolvedBy : string)
| ESCALATION_RESOLVED_CLIENT (escalationId : string) (message : string).

(** The clock and the generators of identifiers, each answer indexed by the
    number of reads made before it. *)
Record Env : Type := mkEnv {
  isoTime : nat -> string;   (* new Date().toISOString() *)
  dateNow : nat -> string;   (* Date.now(), in decimal *)
  random36 : nat -> string;  (* Math.random().toString(36).substr(2, 9) *)
  uuidv4 : nat -> string
}.

(** The state of the server process. *)
Record World : Type := mkWorld {
  activeSessions : JsMap.t Session;
  sessionClients : JsMap.t WebSocket;
  escalatedCalls : JsMap.t Escalation;
  arrays : list (list Message);
  wssInstance : option (list WebSocket);
  readyState : WebSocket -> nat;
  wire : list (WebSocket * ServerMsg);
  reads : nat
}.

(** *** The store of arrays *)

Definition array_read (r : ArrayRef) (h : list (list Message)) : list Message :=
  nth r h [].

Fixpoint array_push (r : ArrayRef) (x : Message) (h : list (list Message))
  : list (list Message) :=
  match h, r with
  | [], _ => []
  | a :: h', O => (a ++ [x]) :: h'
  | a :: h', S r' => a :: array_push r' x h'
  end.

Definition array_alloc (a : list Message) (h : list (list Message))
  : ArrayRef * list (list Message) :=
  (List.length h, h ++ [a]).

(** An array-valued expression: an array that already lives in the store
    (and may be shared), or an array literal that nothing else refers to
    yet. *)
Inductive ArrayVal : Type :=
| Stored (r : ArrayRef)
| Fresh (a : list Message).

Definition array_contents (v : ArrayVal) (h : list (list Message)) : list Message :=
  match v with
  | Stored r => array_read r h
  | Fresh a => a
  end.

(** Keeping an array in a field: a literal is allocated, a stored array is
    kept by reference. *)
Definition array_keep (v : ArrayVal) (h : list (list Message))
  : ArrayRef * list (list Message) :=
  match v with
  | Stored r => (r, h)
  | Fresh a => array_alloc a h
  end.

(** *** Field updates of the world *)

Definition with_sessions (m : JsMap.t Session) (c : JsMap.t WebSocket) (w : World) : World :=
  mkWorld m c (escalatedCalls w) (arrays w) (wssInstance w) (readyState w)
          (wire w) (reads w).

Definition with_escalations (m : JsMap.t Escalation) (w : World) : World :=
  mkWorld (activeSessions w) (sessionClients w) m (arrays w) (wssInstance w)
          (readyState w) (wire w) (reads w).

Definition with_arrays (h : list (list Message)) (w : World) : World :=
  mkWorld (activeSessions w) (sessionClients w) (escalatedCalls w) h
          (wssInstance w) (readyState w) (wire w) (reads w).

Definition with_wire (o : list (WebSocket * ServerMsg)) (w : World) : World :=
  mkWorld (activeSessions w) (sessionClients w) (escalatedCalls w) (arrays w)
          (wssInstance w) (readyState w) o (reads w).

(** One more read of the clock or of a generator. *)
Definition tick (w : World) : World :=
  mkWorld (activeSessions w) (sessionClients w) (escalatedCalls w) (arrays w)
          (wssInstance w) (readyState w) (wire w) (S (reads w)).

(** ** The server *)

Section Server.

Variable env : Env.

(** *** store/sessionStore.js *)

Definition createSession (id : string) (sessionType : option string)
           (ws : WebSocket) (w : World) : Session * World :=
  let startTime := isoTime env (reads w) in
  let w := tick w in
  let '(chatHistory, h) := array_alloc [] (arrays w) in
  let session := mkSession id sessionType startTime [] chatHistory in
  (session,
   with_sessions (JsMap.set id session (activeSessions w))
                 (JsMap.set id ws (sessionClients w))
                 (with_arrays h w)).

Definition getSession (id : string) (w : World) : option Session :=
  JsMap.get id (activeSessions w).

Definition hasSession (id : string) (w : World) : bool :=
  JsMap.has id (activeSessions w).

Definition deleteSession (id : string) (w : World) : World :=
  with_sessions (JsMap.delete id (activeSessions w))
                (JsMap.delete id (sessionClients w)) w.

Definition getAllSessions (w : World) : list Session :=
  JsMap.values (activeSessions w).

Definition getSessionClient (id : string) (w : World) : option WebSocket :=
  JsMap.get id (sessionClients w).

(** A session object is reached through the map only, so a change of one
    of its fields is a [set] at the key it was found under. *)
Definition addAudioChunk (sessionId : string) (chunk : Chunk) (w : World) : World :=
  match JsMap.get sessionId (activeSessions w) with
  | Some session =>
      with_sessions
        (JsMap.set sessionId
           (mkSession (s_id session) (s_type session) (s_startTime session)
                      (s_audioChunks session ++ [chunk]) (s_chatHistory session))
           (activeSessions w))
        (sessionClients w) w
  | None => w
  end.

Definition getAndClearAudioChunks (sessionId : string) (w : World)
  : list Chunk * World :=
  match JsMap.get sessionId (activeSessions w) with
  | Some session =>
      let chunks := s_audioChunks session in
      (chunks,
       with_sessions
         (JsMap.set sessionId
            (mkSession (s_id session) (s_type session) (s_startTime session)
                       [] (s_chatHistory session))
            (activeSessions w))
         (sessionClients w) w)
  | None => ([], w)
  end.

(** The turn as [addChatMessage] stores it: the message's own fields,
    then [timestamp], [confidence] and [tool] overwritten.  The clock is
    read only when the message brings no timestamp. *)
Definition stored_turn (message : Message) (w : World) : Message * World :=
  let '(timestamp, w) :=
    match Js.or_null_string (m_timestamp message) with
    | Some t => (t, w)
    | None => (isoTime env (reads w), tick w)
    end in
  (mkMessage (m_sender message) (m_text message) (Some timestamp)
             (Js.or_null_number (m_confidence message))
             (Js.or_null_string (m_tool message)),
   w).

Definition addChatMessage (sessionId : string) (message : Message) (w : World)
  : World :=
  match JsMap.get sessionId (activeSessions w) with
  | Some session =>
      let '(turn, w) := stored_turn message w in
      with_arrays (array_push (s_chatHistory session) turn (arrays w)) w
  | None => w
  end.

(** [session ? session.chatHistory : []]: the session's own array, not a
    copy of it. *)
Definition getSessionHistory (sessionId : string) (w : World) : ArrayVal :=
  match JsMap.get sessionId (activeSessions w) with
  | Some session => Stored (s_chatHistory session)
  | None => Fresh []
  end.

(** *** store/escalationStore.js *)

Record EscalationParams : Type := mkParams {
  p_sessionId : string;
  p_type : option string;
  p_reason : string;
  p_history : option ArrayVal;
  p_metrics : option string;
  p_avgConfidence : option float;
  p_summary : option string;
  p_customerPhone : option string;
  p_customerName : option string
}.

Definition sender_is (who : string) (m : Message) : bool :=
  String.eqb (m_sender m) who.

(** [filter((c) => c !== null && c !== undefined)]. *)
Fixpoint non_null {A : Type} (l : list (option A)) : list A :=
  match l with
  | [] => []
  | Some x :: l' => x :: non_null l'
  | None :: l' => non_null l'
  end.

Definition userMessagesOf (history : list Message) : list Message :=
  filter (sender_is "user") history.

Definition confidenceScoresOf (history : list Message) : list float :=
  non_null (map m_confidence (userMessagesOf history)).

(** [scores.reduce((a, b) => a + b, 0) / scores.length], or [null]. *)
Definition calculatedAvgConfidenceOf (confidenceScores : list float)
  : option float :=
  if Nat.ltb 0 (List.length confidenceScores)
  then Some (PrimFloat.div
               (fold_left PrimFloat.add confidenceScores 0%float)
               (Js.number_of_nat (List.length confidenceScores)))
  else None.

Definition lowConfidenceCountOf (confidenceScores : list float) : nat :=
  List.length (filter (fun c => PrimFloat.ltb c 0.7%float) confidenceScores).

(** Lower case of an ASCII letter; any other character is kept.  A
    pattern without the [u] flag never lets a character outside ASCII
    match an ASCII letter, so this is the folding the [i] flag applies to
    the patterns below. *)
Definition lower_ascii (c : ascii) : ascii :=
  let n := nat_of_ascii c in
  if Nat.leb 65 n && Nat.leb n 90 then ascii_of_nat (n + 32) else c.

Fixpoint lower (s : string) : string :=
  match s with
  | EmptyString => EmptyString
  | String c s' => String (lower_ascii c) (lower s')
  end.

Fixpoint contains (pat s : string) : bool :=
  String.prefix pat s ||
  match s with
  | EmptyString => false
  | String _ s' => contains pat s'
  end.

(** [/w1|w2|.../i.test(text)]. *)
Definition test_any (words : list string) (text : string) : bool :=
  existsb (fun w => contains w (lower text)) words.

Definition keywordPatterns : list (list string * string) :=
  [ (["invoice"; "bill"; "payment"; "paisa"], "Invoice/Payment");
    (["battery"; "swap"; "charge"], "Battery/Swap");
    (["station"; "location"; "nearest"], "Station Location");
    (["problem"; "issue"; "help"; "complaint"], "Support Issue");
    (["penalty"; "fine"; "late"], "Penalty Inquiry") ].

Definition generateQuickSummary (history : list Message) : string :=
  match history with
  | [] => "No conversation history available."
  | _ =>
      let userMessages := map m_text (userMessagesOf history) in
      let lastUserMessage := last userMessages "" in
      let allText := String.concat " " userMessages in
      let keywords :=
        map snd (filter (fun pt => test_any (fst pt) allText) keywordPatterns) in
      let topicsStr :=
        match keywords with
        | [] => "General inquiry"
        | _ => String.concat ", " keywords
        end in
      ("Customer discussed: " ++ topicsStr ++ ". Last message: " ++
       String (ascii_of_nat 34) (String.substring 0 100 lastUserMessage) ++
       (if Nat.ltb 100 (String.length lastUserMessage) then "..." else "") ++
       String (ascii_of_nat 34) "")%string
  end.

Definition createEscalation (p : EscalationParams) (w : World)
  : Escalation * World :=
  let escalationId :=
    ("esc_" ++ dateNow env (reads w) ++ "_" ++ random36 env (S (reads w)))%string in
  let w := tick (tick w) in
  let history :=
    match p_history p with
    | Some v => v
    | None => Fresh []
    end in
  let contents := array_contents history (arrays w) in
  let userMessages := userMessagesOf contents in
  let confidenceScores := confidenceScoresOf contents in
  let calculatedAvgConfidence := calculatedAvgConfidenceOf confidenceScores in
  let summary :=
    match Js.or_null_string (p_summary p) with
    | Some s => s
    | None => generateQuickSummary contents
    end in
  let createdAt := isoTime env (reads w) in
  let w := tick w in
  let '(kept, h) := array_keep history (arrays w) in
  let escalation :=
    {| e_id := escalationId;
       e_sessionId := p_sessionId p;
       e_type := p_type p;
       e_reason := p_reason p;
       e_history := kept;
       e_metrics := match p_metrics p with Some m => m | None => "{}" end;
       e_avgConfidence := Js.nullish (p_avgConfidence p) calculatedAvgConfidence;
       e_summary := summary;
       e_status := "pending";
       e_createdAt := createdAt;
       e_resolvedAt := None;
       e_resolvedBy := None;
       e_customerPhone := Js.or_null_string (p_customerPhone p);
       e_customerName := Js.or_null_string (p_customerName p);
       e_stats :=
         {| st_totalTurns := List.length contents;
            st_userMessages := List.length userMessages;
            st_botMessages := List.length (filter (sender_is "bot") contents);
            st_lowConfidenceCount := lowConfidenceCountOf confidenceScores;
            st_avgConfidence := calculatedAvgConfidence |} |} in
  (escalation,
   with_escalations (JsMap.set escalationId escalation (escalatedCalls w))
                    (with_arrays h w)).

Definition getEscalation (id : string) (w : World) : option Escalation :=
  JsMap.get id (escalatedCalls w).

Definition getAllEscalations (status : option string) (w : World)
  : list Escalation :=
  let all := JsMap.values (escalatedCalls w) in
  match Js.or_null_string status with
  | Some st => filter (fun e => String.eqb (e_status e) st) all
  | None => all
  end.

Definition getPendingEscalations (w : World) : list Escalation :=
  filter (fun e => negb (String.eqb (e_status e) "resolved"))
         (JsMap.values (escalatedCalls w)).

Definition addMessageToEscalation (escalationId : string) (message : Message)
           (w : World) : World :=
  match JsMap.get escalationId (escalatedCalls w) with
  | Some escalation =>
      let timestamp := isoTime env (reads w) in
      let w := tick w in
      with_arrays
        (array_push (e_history escalation)
           (mkMessage (m_sender message) (m_text message) (Some timestamp)
                      (m_confidence message) (m_tool message))
           (arrays w)) w
  | None => w
  end.

Definition set_status (status : string) (resolvedAt resolvedBy : option string)
           (e : Escalation) : Escalation :=
  {| e_id := e_id e; e_sessionId := e_sessionId e; e_type := e_type e;
     e_reason := e_reason e; e_history := e_history e;
     e_metrics := e_metrics e; e_avgConfidence := e_avgConfidence e;
     e_summary := e_summary e; e_status := status;
     e_createdAt := e_createdAt e; e_resolvedAt := resolvedAt;
     e_resolvedBy := resolvedBy; e_customerPhone := e_customerPhone e;
     e_customerName := e_customerName e; e_stats := e_stats e |}.

(** [resolvedBy] defaults to [null]. *)
Definition updateEscalationStatus (id : string) (status : string)
           (resolvedBy : option string) (w : World)
  : option Escalation * World :=
  match JsMap.get id (escalatedCalls w) with
  | Some escalation =>
      if String.eqb status "resolved"
      then
        let resolvedAt := isoTime env (reads w) in
        let w := tick w in
        let escalation := set_status status (Some resolvedAt) resolvedBy escalation in
        (Some escalation,
         with_escalations (JsMap.set id escalation (escalatedCalls w)) w)
      else
        let escalation :=
          set_status status (e_resolvedAt escalation) (e_resolvedBy escalation)
                     escalation in
        (Some escalation,
         with_escalations (JsMap.set id escalation (escalatedCalls w)) w)
  | None => (None, w)
  end.

Definition deleteEscalation (id : string) (w : World) : World :=
  with_escalations (JsMap.delete id (escalatedCalls w)) w.

(** [Array.from(escalatedCalls.values()).find((e) => e.sessionId === sessionId)]. *)
Definition getEscalationBySessionId (sessionId : string) (w : World)
  : option Escalation :=
  find (fun e => String.eqb (e_sessionId e) sessionId)
       (JsMap.values (escalatedCalls w)).

(** *** utils/broadcaster.js *)

(** [client.readyState === 1], that is [WebSocket.OPEN]. *)
Definition is_open (w : World) (ws : WebSocket) : bool :=
  Nat.eqb (readyState w ws) 1.

Definition broadcast (data : ServerMsg) (w : World) : World :=
  match wssInstance w with
  | None => w
  | Some clients =>
      with_wire
        (wire w ++ map (fun client => (client, data)) (filter (is_open w) clients))
        w
  end.

Definition sendToClient (ws : WebSocket) (data : ServerMsg) (w : World) : World :=
  if is_open w ws then with_wire (wire w ++ [(ws, data)]) w else w.

(** *** handlers/sessionHandler.js *)

Record SessionStartMsg : Type := mkSessionStart {
  ss_id : option string;
  ss_sessionType : option string
}.

Definition handleSessionStart (message : SessionStartMsg) (ws : WebSocket)
           (w : World) : string * World :=
  let '(sessionId, w) :=
    match Js.or_null_string (ss_id message) with
    | Some id => (id, w)
    | None => (uuidv4 env (reads w), tick w)
    end in
  let '(session, w) := createSession sessionId (ss_sessionType message) ws w in
  let w :=
    broadcast (SESSION_STARTED session (array_read (s_chatHistory session) (arrays w)))
              w in
  (sessionId, w).

(** [message.id] may be missing; no session is filed under a missing key. *)
Definition handleSessionEnd (id : option string) (w : World) : World :=
  match id with
  | Some id =>
      if hasSession id w
      then broadcast (SESSION_ENDED id) (deleteSession id w)
      else w
  | None => w
  end.

Definition cleanupSession (sessionId : option string) (w : World) : World :=
  match Js.or_null_string sessionId with
  | Some id =>
      if hasSession id w
      then broadcast (SESSION_ENDED id) (deleteSession id w)
      else w
  | None => w
  end.

(** *** handlers/escalationHandler.js *)

Record EscalateMsg : Type := mkEscalate {
  em_reason : option string;
  em_metrics : option string;
  em_avgConfidence : option float;
  em_summary : option string;
  em_fullHistory : option (list Message);
  em_customerPhone : option string;
  em_customerName : option string
}.

(** The guard [!sessionId || !sessionStore.hasSession(sessionId)] of the
    handlers, read as the session it lets through. *)
Definition active_session (sessionId : option string) (w : World)
  : option string :=
  match Js.or_null_string sessionId with
  | Some id => if hasSession id w then Some id else None
  | None => None
  end.

Definition handleEscalation (message : EscalateMsg) (ws : WebSocket)
           (sessionId : option string) (w : World) : option Escalation * World :=
  match active_session sessionId w with
  | None => (None, sendToClient ws (ERROR "No active session") w)
  | Some sessionId =>
      match getEscalationBySessionId sessionId w with
      | Some existingEscalation =>
          (None, sendToClient ws (ESCALATION_EXISTS (e_id existingEscalation)) w)
      | None =>
          let type :=
            match getSession sessionId w with
            | Some session => s_type session
            | None => None
            end in
          (* fullHistory || sessionStore.getSessionHistory(sessionId):
             an array, even an empty one, is truthy *)
          let history :=
            match em_fullHistory message with
            | Some fullHistory => Fresh fullHistory
            | None => getSessionHistory sessionId w
            end in
          let w :=
            match em_fullHistory message with
            | Some fullHistory =>
                fold_left (fun w msg => addChatMessage sessionId msg w) fullHistory w
            | None => w
            end in
          let '(escalation, w) :=
            createEscalation
              {| p_sessionId := sessionId;
                 p_type := type;
                 p_reason := Js.or_string (em_reason message)
                               "User requested agent assistance";
                 p_history := Some history;
                 p_metrics :=
                   Some (match em_metrics message with Some m => m | None => "{}" end);
                 p_avgConfidence := em_avgConfidence message;
                 p_summary := em_summary message;
                 p_customerPhone := em_customerPhone message;
                 p_customerName := em_customerName message |} w in
          let w :=
            sendToClient ws
              (ESCALATION_TRIGGERED (e_id escalation) "Connecting you to an agent...")
              w in
          let w :=
            broadcast
              (ESCALATION_NEW escalation (array_read (e_history escalation) (arrays w)))
              w in
          (Some escalation, w)
      end
  end.

Definition handleEscalationResolve (escalationId : string)
           (resolvedBy : option string) (ws : WebSocket) (w : World) : World :=
  match updateEscalationStatus escalationId "resolved"
                               (Some (Js.or_string resolvedBy "admin")) w with
  | (None, w) => sendToClient ws (ERROR "Escalation not found") w
  | (Some escalation, w) =>
      let w :=
        broadcast
          (ESCALATION_RESOLVED_ALL escalationId (Js.or_string resolvedBy "admin")) w in
      match getSessionClient (e_sessionId escalation) w with
      | Some sessionClient =>
          if is_open w sessionClient
          then sendToClient sessionClient
                 (ESCALATION_RESOLVED_CLIENT escalationId
                    "An agent has resolved your request.") w
          else w
      | None => w
      end
  end.

Definition handleEscalationTake (escalationId : string) (ws : WebSocket)
           (w : World) : World :=
  match updateEscalationStatus escalationId "in-progress" None w with
  | (None, w) => sendToClient ws (ERROR "Escalation not found") w
  | (Some escalation, w) =>
      broadcast
        (ESCALATION_UPDATED escalation (array_read (e_history escalation) (arrays w)))
        w
  end.

End Server.

(** ** services/pythonBackend.js: the order of the audio chunks *)

Module PythonBackend.

(** [Array.prototype.sort] with the comparator [(a, b) => a.index - b.index].
    The sort is stable, and a stable sort has one result; insertion from
    the right, each chunk going in front of the chunks of equal or larger
    index that follow it, computes it. *)
Fixpoint insert (c : Chunk) (l : list Chunk) : list Chunk :=
  match l with
  | [] => [c]
  | d :: l' => if Z.leb (c_index c) (c_index d) then c :: l else d :: insert c l'
  end.

Definition sort (l : list Chunk) : list Chunk :=
  fold_right insert [] l.

(** [audioChunks.sort(...).map(chunk => chunk.data).join('')]. *)
Definition combinedAudio (audioChunks : list Chunk) : string :=
  String.concat "" (map c_data (sort audioChunks)).

Inductive Outcome (A : Type) : Type :=
| Returned (a : A)
| Thrown (message : string).
Arguments Returned {A} a.
Arguments Thrown {A} message.

(** The request to the backend is commented out in the source: the
    function combines the chunks and then throws.  The combined audio is
    returned beside the outcome so that it can be spoken about. *)
Definition forwardAudioToPython (sessionId : string) (audioChunks : list Chunk)
  : string * Outcome unit :=
  (combinedAudio audioChunks, Thrown "Python backend not configured").

End PythonBackend.

(** ** The voice client: control signals and the state of the call *)

Module Client.

(** The part of the voicebot page's state the callbacks write. *)
Record Page : Type := mkPage {
  botState : string;
  isConnected : bool;
  connectionError : option string
}.

Definition setBotState (s : string) (p : Page) : Page :=
  mkPage s (isConnected p) (connectionError p).

(** The callbacks a [VoiceSocketService] holds; [null] until registered. *)
Record VoiceSocketService : Type := mkService {
  onStateChangeCallback : option (string -> Page -> Page);
  onLogCallback : option (string -> Page -> Page);
  onErrorCallback : option (string -> Page -> Page);
  onAdditionalOutputs : list (option string) -> Page -> Page
}.

Definition onStateChange (callback : string -> Page -> Page)
           (svc : VoiceSocketService) : VoiceSocketService :=
  mkService (Some callback) (onLogCallback svc) (onErrorCallback svc)
            (onAdditionalOutputs svc).

Definition call (cb : option (string -> Page -> Page)) (arg : string) (p : Page)
  : Page :=
  match cb with
  | Some f => f arg p
  | None => p
  end.

(** A message of the data channel: its [type] and its [data]. *)
Inductive Data : Type :=
| Text (s : string)
| Outputs (l : list (option string)).

Record ChannelMessage : Type := mkChannelMessage {
  cm_type : string;
  cm_data : Data
}.

Definition data_is (d : Data) (s : string) : bool :=
  match d with
  | Text t => String.eqb t s
  | Outputs _ => false
  end.

Definition data_text (d : Data) : string :=
  match d with
  | Text t => t
  | Outputs _ => ""
  end.

Definition handleDataChannelMessage (svc : VoiceSocketService)
           (message : ChannelMessage) (p : Page) : Page :=
  if String.eqb (cm_type message) "log" then
    let p := call (onLogCallback svc) (data_text (cm_data message)) p in
    if data_is (cm_data message) "pause_detected" then
      call (onStateChangeCallback svc) "processing" p
    else if data_is (cm_data message) "response_starting" then
      call (onStateChangeCallback svc) "speaking" p
    else if data_is (cm_data message) "started_talking" then
      call (onStateChangeCallback svc) "listening" p
    else p
  else if String.eqb (cm_type message) "fetch_output" then
    match cm_data message with
    | Outputs l => onAdditionalOutputs svc l p
    | Text _ => p
    end
  else if String.eqb (cm_type message) "error" then
    call (onErrorCallback svc) (data_text (cm_data message)) p
  else p.

(** The state-change handler the voicebot page registers. *)
Definition pageStateChange (state : string) (p : Page) : Page :=
  if String.eqb state "connected" then mkPage "listening" true None
  else if String.eqb state "disconnected" then
    mkPage (botState p) false (connectionError p)
  else if String.eqb state "listening" then setBotState "listening" p
  else if String.eqb state "processing" then setBotState "processing" p
  else if String.eqb state "speaking" then setBotState "speaking" p
  else p.

End Client.

(** * Notions the properties are stated with *)

(** ** The design document's statistics *)

(** The design document's words: the turns that count are those of sender
    "user" with a confidence that is not null; the average is the sum of
    their confidences, taken in order, over their number; the
    low-confidence count is the number of them below 0.70. *)
Module Design.

Definition counts (m : Message) : option float :=
  if String.eqb (m_sender m) "user" then m_confidence m else None.

Fixpoint sum_count (history : list Message) (sum : float) (n : nat)
  : float * nat :=
  match history with
  | [] => (sum, n)
  | m :: rest =>
      match counts m with
      | Some c => sum_count rest (PrimFloat.add sum c) (S n)
      | None => sum_count rest sum n
      end
  end.

Definition avgConfidence (history : list Message) : option float :=
  match sum_count history 0%float 0 with
  | (_, O) => None
  | (sum, n) => Some (PrimFloat.div sum (Js.number_of_nat n))
  end.

Fixpoint lowConfidenceCount (history : list Message) : nat :=
  match history with
  | [] => 0
  | m :: rest =>
      match counts m with
      | Some c => if PrimFloat.ltb c 0.7%float
                  then S (lowConfidenceCount rest)
                  else lowConfidenceCount rest
      | None => lowConfidenceCount rest
      end
  end.

End Design.

(** ** Turns, histories and registries *)


(** The history [createEscalation] computes its statistics from:
    [history || []], read when the escalation is created. *)
Definition history_given (p : EscalationParams) (w : World) : list Message :=
  match p_history p with
  | Some v => array_contents v (arrays w)
  | None => []
  end.

(** Everything but the arrays and the count of reads is the same. *)
Definition same_registry (w w' : World) : Prop :=
  activeSessions w' = activeSessions w /\
  sessionClients w' = sessionClients w /\
  escalatedCalls w' = escalatedCalls w /\
  wssInstance w' = wssInstance w /\
  readyState w' = readyState w /\
  wire w' = wire w.

(** The two maps of the session store hold the same IDs in the same
    order: [createSession] and [deleteSession] write both. *)
Definition registry_coherent (w : World) : Prop :=
  JsMap.keys (activeSessions w) = JsMap.keys (sessionClients w).

(** Every session's history is an array of the store. *)
Definition histories_allocated (w : World) : Prop :=
  forall k s, JsMap.get k (activeSessions w) = Some s ->
              s_chatHistory s < List.length (arrays w).

Definition params_of (message : EscalateMsg) (id : string) (w : World)
  : EscalationParams :=
  {| p_sessionId := id;
     p_type := match getSession id w with
               | Some session => s_type session
               | None => None
               end;
     p_reason := Js.or_string (em_reason message) "User requested agent assistance";
     p_history := Some match em_fullHistory message with
                       | Some fullHistory => Fresh fullHistory
                       | None => getSessionHistory id w
                       end;
     p_metrics := Some (match em_metrics message with Some m => m | None => "{}" end);
     p_avgConfidence := em_avgConfidence message;
     p_summary := em_summary message;
     p_customerPhone := em_customerPhone message;
     p_customerName := em_customerName message |}.

Definition index_le (a b : Chunk) : Prop := (c_index a <= c_index b)%Z.

Definition index_is (k : Z) (c : Chunk) : bool := Z.eqb (c_index c) k.

Section Derived.

Variable env : Env.

Definition appendAll (id : string) (msgs : list Message) (w : World) : World :=
  fold_left (fun w m => addChatMessage env id m w) msgs w.

(** The world [createEscalation] is called in, and what it is called with. *)
Definition world_before_create (message : EscalateMsg) (id : string) (w : World)
  : World :=
  match em_fullHistory message with
  | Some fullHistory => appendAll id fullHistory w
  | None => w
  end.

End Derived.

(** ** A concrete environment and run, for examples *)

Definition dec (n : nat) : string := NilEmpty.string_of_uint (Nat.to_uint n).

Definition env0 : Env :=
  {| isoTime := fun n => ("2026-01-01T00:00:00." ++ dec n ++ "Z")%string;
     dateNow := fun n => ("17672256000" ++ dec n)%string;
     random36 := fun n => ("k3x9q" ++ dec n)%string;
     uuidv4 := fun n => ("uuid-" ++ dec n)%string |}.

(** A server with two open connections: 1 is a customer, 2 an agent
    console. *)
Definition world0 : World :=
  mkWorld [] [] [] [] (Some [1; 2]) (fun _ => 1) [] 0.

Definition start_s1 : SessionStartMsg := mkSessionStart (Some "s1") (Some "chat").

Definition user_says (text : string) (confidence : option float) : Message :=
  mkMessage "user" text None confidence None.

Definition escalate_plain : EscalateMsg :=
  mkEscalate (Some "test") None None None None None None.

(** [SESSION_START] for "s1", then one user turn. *)
Definition world_s1 : World := snd (handleSessionStart env0 start_s1 1 world0).

Definition world_s1_hi : World := addChatMessage env0 "s1" (user_says "hi" None) world_s1.

(** The run above, then [SESSION_END] for "s1". *)
Definition world_s1_ended : World := handleSessionEnd (Some "s1") world_s1_hi.


(** C2, counterexample.  "s1" is started, a turn is appended, and "s1" is
    started again: there is no error outcome, the entry of "s1" is a new
    session whose history is empty, and [SESSION_STARTED] is broadcast a
    second time. *)
Definition world_s1_restarted : World :=
  snd (handleSessionStart env0 start_s1 1 world_s1_hi).

Definition chunk (data : string) (index : Z) : Chunk := mkChunk data index 0.

(** "s1" with three chunks that arrived in the order 0, 2, 1. *)
Definition world_s1_audio : World :=
  addAudioChunk "s1" (chunk "bb" 1)
    (addAudioChunk "s1" (chunk "cc" 2)
       (addAudioChunk "s1" (chunk "aa" 0) world_s1)).

(** The escalation that [ESCALATE] with reason "test" creates for "s1". *)
Definition escalation1 : Escalation :=
  fst (createEscalation env0
         (mkParams "s1" (Some "chat") "test" (Some (Stored 0)) (Some "{}")
                   None None None None)
         world_s1_hi).

Definition world_s1_escalated : World :=
  snd (handleEscalation env0 escalate_plain 1 (Some "s1") world_s1_hi).

Definition world_s1_resolved : World :=
  handleEscalationResolve env0 (e_id escalation1) (Some "agent-7") 2 world_s1_escalated.

Definition world_s1_retaken : World :=
  handleEscalationTake env0 (e_id escalation1) 2 world_s1_resolved.

(** Four user turns with confidences 0.9, 0.5, 0.3 and none. *)
Definition four_user_turns : list Message :=
  [ user_says "where is my invoice" (Some 0.9%float);
    user_says "battery swap" (Some 0.5%float);
    user_says "nearest station" (Some 0.3%float);
    user_says "hello" None ].

Definition params_four : EscalationParams :=
  mkParams "s1" (Some "voice") "low confidence" (Some (Fresh four_user_turns))
           None None None None None.



(** "s1" after its escalation, then one more user turn. *)
Definition world_s1_escalated_more : World :=
  addChatMessage env0 "s1" (user_says "are you still there?" None) world_s1_escalated.

(** An [ESCALATE] that brings its own history. *)
Definition escalate_with_history : EscalateMsg :=
  mkEscalate (Some "voice pipeline") None None None
             (Some [user_says "hello" (Some 0.8%float)]) None None.

(** * Properties *)

(** ** [Map] *)

Module JsMapFacts.
Import JsMap.

Section Facts.
Context {V : Type}.
Implicit Types (k : string) (v : V) (m : t V).

Lemma get_set_same k v m : get k (set k v m) = Some v.
Proof.
  induction m as [|[k' v'] m IH]; simpl.
  - now rewrite String.eqb_refl.
  - destruct (String.eqb k' k) eqn:E; simpl.
    + now rewrite String.eqb_refl.
    + now rewrite E.
Qed.

Lemma get_set_other k k' v m : k' <> k -> get k' (set k v m) = get k' m.
Proof.
  intros N. induction m as [|[k0 v0] m IH]; simpl.
  - apply String.eqb_neq in N. rewrite String.eqb_sym in N. now rewrite N.
  - destruct (String.eqb k0 k) eqn:E; simpl.
    + apply String.eqb_eq in E. subst k0.
      assert (String.eqb k k' = false) as ->
          by (apply String.eqb_neq; congruence).
      reflexivity.
    + now rewrite IH.
Qed.

Lemma keys_set_present k v m : has k m = true -> keys (set k v m) = keys m.
Proof.
  unfold has, keys. induction m as [|[k0 v0] m IH]; simpl.
  - discriminate.
  - destruct (String.eqb k0 k) eqn:E; simpl.
    + apply String.eqb_eq in E. now subst.
    + intros H. now rewrite IH.
Qed.

Lemma delete_absent k m : get k m = None -> delete k m = m.
Proof.
  unfold delete. induction m as [|[k0 v0] m IH]; simpl; [reflexivity|].
  destruct (String.eqb k0 k); simpl; [discriminate|].
  intros H. now rewrite IH.
Qed.

Lemma get_delete_same k m : get k (delete k m) = None.
Proof.
  unfold delete. induction m as [|[k0 v0] m IH]; simpl; [reflexivity|].
  destruct (String.eqb k0 k) eqn:E; simpl; [assumption|].
  now rewrite E.
Qed.

Lemma delete_delete k m : delete k (delete k m) = delete k m.
Proof. apply delete_absent, get_delete_same. Qed.


Lemma has_true_get k m : has k m = true -> exists v, get k m = Some v.
Proof. unfold has. destruct (get k m) as [v|]; [now exists v|discriminate]. Qed.

Lemma get_in_values k v m : get k m = Some v -> In v (values m).
Proof.
  unfold values. induction m as [|[k0 v0] m IH]; simpl; [discriminate|].
  destruct (String.eqb k0 k); [intros [= ->]; now left|auto].
Qed.

End Facts.

Section TwoMaps.
Context {V1 V2 : Type}.

Lemma keys_set_congr k (v1 : V1) (v2 : V2) (m1 : t V1) : forall (m2 : t V2),
  keys m1 = keys m2 -> keys (set k v1 m1) = keys (set k v2 m2).
Proof.
  unfold keys. induction m1 as [|[k1 x1] m1 IH]; intros [|[k2 x2] m2] E;
    simpl in *; try discriminate; [reflexivity|].
  injection E as -> E. destruct (String.eqb k2 k); simpl; f_equal; auto.
Qed.

Lemma keys_delete_congr k (m1 : t V1) : forall (m2 : t V2),
  keys m1 = keys m2 -> keys (delete k m1) = keys (delete k m2).
Proof.
  unfold keys, delete. induction m1 as [|[k1 x1] m1 IH]; intros [|[k2 x2] m2] E;
    simpl in *; try discriminate; [reflexivity|].
  injection E as -> E. destruct (String.eqb k2 k); simpl; f_equal; auto.
Qed.

Lemma get_none_congr k (m1 : t V1) : forall (m2 : t V2),
  keys m1 = keys m2 -> get k m1 = None -> get k m2 = None.
Proof.
  unfold keys. induction m1 as [|[k1 x1] m1 IH]; intros [|[k2 x2] m2] E;
    simpl in *; try discriminate; [reflexivity|].
  injection E as -> E. destruct (String.eqb k2 k); [discriminate|auto].
Qed.

End TwoMaps.

Lemma get_delete_other {V : Type} k k' (m : t V) :
  k' <> k -> get k' (delete k m) = get k' m.
Proof.
  intros N. unfold delete. induction m as [|[k0 v0] m IH]; simpl; [reflexivity|].
  destruct (String.eqb k0 k) eqn:E; simpl.
  - apply String.eqb_eq in E. subst k0.
    assert (String.eqb k k' = false) as -> by (apply String.eqb_neq; congruence).
    exact IH.
  - now rewrite IH.
Qed.

Lemma get_delete_some {V : Type} k k' (v : V) (m : t V) :
  get k' (delete k m) = Some v -> get k' m = Some v.
Proof.
  destruct (String.eqb_spec k' k) as [->|N].
  - now rewrite get_delete_same.
  - now rewrite get_delete_other.
Qed.

Lemma get_set_cases {V : Type} k k' (v v' : V) (m : t V) :
  get k' (set k v m) = Some v' -> (k' = k /\ v' = v) \/ get k' m = Some v'.
Proof.
  destruct (String.eqb_spec k' k) as [->|N].
  - rewrite get_set_same. intros [= <-]. now left.
  - rewrite get_set_other by assumption. now right.
Qed.

End JsMapFacts.

(** ** The store of arrays *)

Lemma array_push_length r x h : List.length (array_push r x h) = List.length h.
Proof.
  revert r. induction h as [|a h IH]; intros [|r]; simpl; auto.
Qed.

Lemma array_read_push_same r x h :
  r < List.length h -> array_read r (array_push r x h) = array_read r h ++ [x].
Proof.
  unfold array_read. revert r.
  induction h as [|a h IH]; intros [|r]; simpl; try lia; auto.
  intros H. apply IH. lia.
Qed.

Lemma array_read_push_other r r' x h :
  r' <> r -> array_read r' (array_push r x h) = array_read r' h.
Proof.
  unfold array_read. revert r r'.
  induction h as [|a h IH]; intros [|r] [|r'] N; simpl; try congruence; auto.
Qed.

Lemma array_read_alloc a h : array_read (List.length h) (h ++ [a]) = a.
Proof. unfold array_read. now rewrite nth_middle. Qed.

Lemma array_read_alloc_old r a h :
  r < List.length h -> array_read r (h ++ [a]) = array_read r h.
Proof. unfold array_read. intros H. now rewrite app_nth1. Qed.

(** ** The session store *)

Section SessionStoreFacts.

Variable env : Env.


Lemma stored_turn_frame m w :
  let w' := snd (stored_turn env m w) in
  activeSessions w' = activeSessions w /\
  sessionClients w' = sessionClients w /\
  escalatedCalls w' = escalatedCalls w /\
  arrays w' = arrays w /\
  wssInstance w' = wssInstance w /\
  readyState w' = readyState w /\
  wire w' = wire w.
Proof.
  unfold stored_turn.
  destruct (Js.or_null_string (m_timestamp m)); simpl; repeat split.
Qed.


Lemma addChatMessage_live id m w s :
  JsMap.get id (activeSessions w) = Some s ->
  let w' := addChatMessage env id m w in
  arrays w' = array_push (s_chatHistory s) (fst (stored_turn env m w)) (arrays w) /\
  activeSessions w' = activeSessions w /\
  sessionClients w' = sessionClients w /\
  escalatedCalls w' = escalatedCalls w /\
  wssInstance w' = wssInstance w /\
  readyState w' = readyState w /\
  wire w' = wire w.
Proof.
  intros H. unfold addChatMessage. rewrite H.
  pose proof (stored_turn_frame m w) as F. simpl in F.
  destruct (stored_turn env m w) as [t w1]. simpl in *.
  destruct F as (F1 & F2 & F3 & F4 & F5 & F6 & F7).
  rewrite F4. repeat split; assumption.
Qed.



End SessionStoreFacts.

(** ** C8: deleting a session *)

(** C8.  Deleting a session is idempotent: a second [deleteSession] of the
    same ID changes nothing, [deleteSession] of an ID without a session
    leaves a coherent world as it is, and [SESSION_END] for an ID without
    a session leaves the world as it is, the wire included, so nothing is
    deleted and nothing is broadcast.  The functions are total: there is
    no error outcome.  ([registry_coherent] holds of every world the
    session store has produced from an empty one, see
    [registry_coherent_kept].) *)
Theorem deleteSession_idempotent (id : string) (w : World) :
  deleteSession id (deleteSession id w) = deleteSession id w /\
  hasSession id (deleteSession id w) = false /\
  (registry_coherent w -> hasSession id w = false -> deleteSession id w = w) /\
  (hasSession id w = false -> handleSessionEnd (Some id) w = w) /\
  handleSessionEnd None w = w.
Proof.
  destruct w as [ss cs es h wss rs o n].
  unfold deleteSession, hasSession, registry_coherent, handleSessionEnd,
    with_sessions, JsMap.has; simpl.
  repeat split.
  - now rewrite !JsMapFacts.delete_delete.
  - now rewrite JsMapFacts.get_delete_same.
  - intros H1 H2. destruct (JsMap.get id ss) eqn:E; [discriminate|].
    rewrite (JsMapFacts.delete_absent id cs), JsMapFacts.delete_absent;
      [reflexivity|assumption|].
    exact (JsMapFacts.get_none_congr id ss cs H1 E).
  - intros H. unfold hasSession, JsMap.has. simpl.
    now destruct (JsMap.get id ss).
Qed.

(** C8, on the example run. *)
Lemma deleteSession_idempotent_witness :
  registry_coherent world_s1_ended /\
  hasSession "s1" world_s1_hi = true /\
  deleteSession "s1" world_s1_ended = world_s1_ended /\
  handleSessionEnd (Some "s1") world_s1_ended = world_s1_ended /\
  handleSessionEnd (Some "never") world_s1_hi = world_s1_hi.
Proof.
  split; [reflexivity|]. split; [reflexivity|].
  pose proof (deleteSession_idempotent "s1" world_s1_ended) as (_ & _ & D & E & _).
  pose proof (deleteSession_idempotent "never" world_s1_hi) as (_ & _ & _ & E' & _).
  split; [apply D; reflexivity|].
  split; [apply E; reflexivity|apply E'; reflexivity].
Defined.

(** ** C7: appending turns *)



(** ** C2: a second [createSession] for the same ID *)

Lemma createSession_twice_replaces :
  hasSession "s1" world_s1_hi = true /\
  map m_text (array_contents (getSessionHistory "s1" world_s1_hi) (arrays world_s1_hi))
    = ["hi"] /\
  handleSessionStart env0 start_s1 1 world_s1_hi = ("s1", world_s1_restarted) /\
  getSession "s1" world_s1_restarted <> getSession "s1" world_s1_hi /\
  array_contents (getSessionHistory "s1" world_s1_restarted) (arrays world_s1_restarted)
    = [] /\
  List.length (wire world_s1_restarted) = List.length (wire world_s1_hi) + 2.
Proof.
  repeat split; try reflexivity.
  vm_compute. discriminate.
Qed.

(** C2, as the code has it.  [createSession] has no failure: for an ID
    that is present it files a new session under that ID (the given type,
    the time of the call, no audio chunks, a new and empty history) and the
    given connection, in the place the old entry had, so the registry still
    holds one entry for the ID; [SESSION_START] with that ID broadcasts
    [SESSION_STARTED] for the new session. *)
Theorem createSession_replaces (env : Env) (id : string) (ty : option string)
        (ws : WebSocket) (w : World) :
  hasSession id w = true ->
  getSession id (snd (createSession env id ty ws w))
    = Some (fst (createSession env id ty ws w)) /\
  fst (createSession env id ty ws w)
    = mkSession id ty (isoTime env (reads w)) [] (List.length (arrays w)) /\
  array_read (List.length (arrays w)) (arrays (snd (createSession env id ty ws w))) = [] /\
  getSessionClient id (snd (createSession env id ty ws w)) = Some ws /\
  JsMap.keys (activeSessions (snd (createSession env id ty ws w)))
    = JsMap.keys (activeSessions w) /\
  (id <> "" ->
   handleSessionStart env (mkSessionStart (Some id) ty) ws w
     = (id, broadcast (SESSION_STARTED (fst (createSession env id ty ws w)) [])
                      (snd (createSession env id ty ws w)))).
Proof.
  intros H. unfold getSession, getSessionClient, handleSessionStart.
  unfold createSession; simpl.
  rewrite !JsMapFacts.get_set_same, array_read_alloc.
  repeat split.
  - now apply JsMapFacts.keys_set_present.
  - intros N. apply String.eqb_neq in N. rewrite N. simpl.
    now rewrite array_read_alloc.
Qed.

(** C2, on the example run. *)
Lemma createSession_replaces_witness :
  hasSession "s1" world_s1_hi = true /\
  getSession "s1" (snd (createSession env0 "s1" (Some "chat") 1 world_s1_hi))
    = Some (mkSession "s1" (Some "chat") (isoTime env0 (reads world_s1_hi)) []
                      (List.length (arrays world_s1_hi))).
Proof.
  split; [reflexivity|].
  destruct (createSession_replaces env0 "s1" (Some "chat") 1 world_s1_hi eq_refl)
    as (G & S & _).
  now rewrite G, S.
Defined.

(** ** C4: draining the audio chunks *)

Module PythonBackendFacts.
Import PythonBackend.

Lemma insert_perm c l : Permutation (c :: l) (insert c l).
Proof.
  induction l as [|d l IH]; simpl; [reflexivity|].
  destruct (Z.leb (c_index c) (c_index d)); [reflexivity|].
  rewrite perm_swap. now constructor.
Qed.

Lemma sort_perm l : Permutation l (sort l).
Proof.
  induction l as [|c l IH]; simpl; [constructor|].
  rewrite <- insert_perm. now constructor.
Qed.

Lemma insert_hd c x l :
  index_le x c -> HdRel index_le x l -> HdRel index_le x (insert c l).
Proof.
  intros Hxc H. destruct l as [|d l]; simpl; [now constructor|].
  destruct (Z.leb (c_index c) (c_index d)); constructor; [assumption|].
  now inversion H.
Qed.

Lemma insert_sorted c l : Sorted index_le l -> Sorted index_le (insert c l).
Proof.
  induction 1 as [|d l S IH H]; simpl; [repeat constructor|].
  destruct (Z.leb (c_index c) (c_index d)) eqn:E.
  - constructor; [now constructor|constructor]. apply Z.leb_le, E.
  - constructor; [assumption|].
    apply insert_hd; [|assumption].
    apply Z.leb_gt in E. unfold index_le. lia.
Qed.

Lemma sort_sorted l : Sorted index_le (sort l).
Proof.
  induction l as [|c l IH]; simpl; [constructor|now apply insert_sorted].
Qed.

Lemma insert_stable k c l :
  filter (index_is k) (insert c l) = filter (index_is k) (c :: l).
Proof.
  induction l as [|d l IH]; [reflexivity|].
  cbn [insert]. destruct (Z.leb (c_index c) (c_index d)) eqn:E; [reflexivity|].
  cbn [filter] in *. rewrite IH.
  unfold index_is. apply Z.leb_gt in E.
  destruct (Z.eqb_spec (c_index c) k), (Z.eqb_spec (c_index d) k);
    try reflexivity; lia.
Qed.

Lemma sort_stable k l : filter (index_is k) (sort l) = filter (index_is k) l.
Proof.
  induction l as [|c l IH]; [reflexivity|].
  cbn [sort fold_right]. fold (sort l). rewrite insert_stable.
  cbn [filter]. now rewrite IH.
Qed.

End PythonBackendFacts.

(** C4, counterexample.  Chunks buffered with indices 0, 2, 1 are drained
    by [getAndClearAudioChunks] as 0, 2, 1. *)
Lemma getAndClearAudioChunks_not_sorted :
  map c_index (fst (getAndClearAudioChunks "s1" world_s1_audio)) = [0; 2; 1]%Z /\
  map c_index (fst (getAndClearAudioChunks "s1" world_s1_audio)) <> [0; 1; 2]%Z.
Proof.
  split; [reflexivity|]. vm_compute. discriminate.
Qed.

(** C4, as the code has it.  [getAndClearAudioChunks] returns the chunks
    of a session in the order [addAudioChunk] received them and leaves the
    session with no buffered chunk.  The order by chunk index is made by
    the consumer, [forwardAudioToPython]: the audio it combines is the data
    of the drained chunks sorted by index, a stable sort (the drained
    chunks, permuted, in non-decreasing index, chunks of equal index in
    the order of arrival). *)
Theorem getAndClearAudioChunks_arrival_order (id : string) (w : World) (s : Session) :
  getSession id w = Some s ->
  fst (getAndClearAudioChunks id w) = s_audioChunks s /\
  (exists s', getSession id (snd (getAndClearAudioChunks id w)) = Some s' /\
              s_audioChunks s' = []) /\
  (forall c, exists s', getSession id (addAudioChunk id c w) = Some s' /\
                        s_audioChunks s' = s_audioChunks s ++ [c]) /\
  fst (PythonBackend.forwardAudioToPython id (fst (getAndClearAudioChunks id w)))
    = String.concat "" (map c_data (PythonBackend.sort (s_audioChunks s))) /\
  Sorted index_le (PythonBackend.sort (s_audioChunks s)) /\
  Permutation (s_audioChunks s) (PythonBackend.sort (s_audioChunks s)) /\
  (forall k, filter (index_is k) (PythonBackend.sort (s_audioChunks s))
             = filter (index_is k) (s_audioChunks s)).
Proof.
  unfold getSession, getAndClearAudioChunks, addAudioChunk. intros G. rewrite G.
  simpl. rewrite JsMapFacts.get_set_same.
  split; [reflexivity|]. split; [eauto|]. split.
  { intros c. rewrite JsMapFacts.get_set_same. eauto. }
  split; [reflexivity|]. split; [apply PythonBackendFacts.sort_sorted|].
  split; [apply PythonBackendFacts.sort_perm|].
  intros k. apply PythonBackendFacts.sort_stable.
Qed.

(** C4, on the example run. *)
Lemma getAndClearAudioChunks_arrival_order_witness :
  map c_index (fst (getAndClearAudioChunks "s1" world_s1_audio)) = [0; 2; 1]%Z /\
  map c_index (PythonBackend.sort (fst (getAndClearAudioChunks "s1" world_s1_audio)))
    = [0; 1; 2]%Z /\
  fst (PythonBackend.forwardAudioToPython "s1"
         (fst (getAndClearAudioChunks "s1" world_s1_audio))) = "aabbcc".
Proof.
  split; [reflexivity|]. split; [reflexivity|].
  destruct (getAndClearAudioChunks_arrival_order "s1" world_s1_audio
              (mkSession "s1" (Some "chat") "2026-01-01T00:00:00.0Z"
                         [chunk "aa" 0; chunk "cc" 2; chunk "bb" 1] 0) eq_refl)
    as (_ & _ & _ & F & _).
  rewrite F. reflexivity.
Defined.

(** ** The escalation store *)

Section EscalationStoreFacts.

Variable env : Env.

Lemma createEscalation_record p w :
  fst (createEscalation env p w) =
    {| e_id := ("esc_" ++ dateNow env (reads w) ++ "_" ++
                random36 env (S (reads w)))%string;
       e_sessionId := p_sessionId p;
       e_type := p_type p;
       e_reason := p_reason p;
       e_history := match p_history p with
                    | Some (Stored r) => r
                    | _ => List.length (arrays w)
                    end;
       e_metrics := match p_metrics p with Some m => m | None => "{}" end;
       e_avgConfidence :=
         Js.nullish (p_avgConfidence p)
           (calculatedAvgConfidenceOf (confidenceScoresOf (history_given p w)));
       e_summary := match Js.or_null_string (p_summary p) with
                    | Some s => s
                    | None => generateQuickSummary (history_given p w)
                    end;
       e_status := "pending";
       e_createdAt := isoTime env (S (S (reads w)));
       e_resolvedAt := None;
       e_resolvedBy := None;
       e_customerPhone := Js.or_null_string (p_customerPhone p);
       e_customerName := Js.or_null_string (p_customerName p);
       e_stats :=
         {| st_totalTurns := List.length (history_given p w);
            st_userMessages := List.length (userMessagesOf (history_given p w));
            st_botMessages :=
              List.length (filter (sender_is "bot") (history_given p w));
            st_lowConfidenceCount :=
              lowConfidenceCountOf (confidenceScoresOf (history_given p w));
            st_avgConfidence :=
              calculatedAvgConfidenceOf (confidenceScoresOf (history_given p w)) |} |}.
Proof.
  unfold createEscalation, history_given. cbv zeta.
  destruct (p_history p) as [[r|a]|]; reflexivity.
Qed.

Lemma createEscalation_world p w :
  let w' := snd (createEscalation env p w) in
  escalatedCalls w' =
    JsMap.set (e_id (fst (createEscalation env p w))) (fst (createEscalation env p w))
              (escalatedCalls w) /\
  arrays w' = match p_history p with
              | Some (Stored _) => arrays w
              | Some (Fresh a) => arrays w ++ [a]
              | None => arrays w ++ [[]]
              end /\
  activeSessions w' = activeSessions w /\
  sessionClients w' = sessionClients w /\
  wssInstance w' = wssInstance w /\
  readyState w' = readyState w /\
  wire w' = wire w.
Proof.
  unfold createEscalation. cbv zeta.
  destruct (p_history p) as [[r|a]|]; simpl; repeat split.
Qed.

Lemma updateEscalationStatus_found id status resolvedBy w e :
  getEscalation id w = Some e ->
  updateEscalationStatus env id status resolvedBy w =
    if String.eqb status "resolved"
    then (Some (set_status status (Some (isoTime env (reads w))) resolvedBy e),
          with_escalations
            (JsMap.set id
               (set_status status (Some (isoTime env (reads w))) resolvedBy e)
               (escalatedCalls w))
            (tick w))
    else (Some (set_status status (e_resolvedAt e) (e_resolvedBy e) e),
          with_escalations
            (JsMap.set id (set_status status (e_resolvedAt e) (e_resolvedBy e) e)
                       (escalatedCalls w))
            w).
Proof.
  unfold getEscalation, updateEscalationStatus. intros ->.
  destruct (String.eqb status "resolved"); reflexivity.
Qed.

End EscalationStoreFacts.

(** ** C5: the status of an escalation *)

Example escalation1_created :
  fst (handleEscalation env0 escalate_plain 1 (Some "s1") world_s1_hi)
    = Some escalation1 /\
  e_id escalation1 = "esc_176722560002_k3x9q3".
Proof. split; reflexivity. Qed.

(** C5, counterexample.  "s1" is escalated and the escalation is resolved;
    [ESCALATION_TAKE] for it then sets its status to "in-progress". *)
Lemma resolved_is_not_terminal :
  option_map e_status (getEscalation (e_id escalation1) world_s1_resolved)
    = Some "resolved" /\
  option_map e_status (getEscalation (e_id escalation1) world_s1_retaken)
    = Some "in-progress" /\
  option_map e_resolvedBy (getEscalation (e_id escalation1) world_s1_retaken)
    = Some (Some "agent-7").
Proof. repeat split; reflexivity. Qed.

(** C5, as the code has it.  [updateEscalationStatus] on a known ID sets
    the status to the one asked for, whatever the status was: the record
    filed under the ID afterwards is the old one with the new status.  The
    resolution time and the resolver are written when, and only when, the
    new status is "resolved"; any other status keeps both as they were.  So
    [ESCALATION_TAKE] on a resolved escalation leaves it "in-progress"
    with the stamps of its resolution.  A new escalation has no stamps. *)
Theorem updateEscalationStatus_sets_status (env : Env) (id status : string)
        (resolvedBy : option string) (ws : WebSocket) (w : World) (e : Escalation) :
  getEscalation id w = Some e ->
  (exists e',
      fst (updateEscalationStatus env id status resolvedBy w) = Some e' /\
      getEscalation id (snd (updateEscalationStatus env id status resolvedBy w))
        = Some e' /\
      e_status e' = status /\
      (status = "resolved" ->
       e_resolvedAt e' = Some (isoTime env (reads w)) /\ e_resolvedBy e' = resolvedBy) /\
      (status <> "resolved" ->
       e_resolvedAt e' = e_resolvedAt e /\ e_resolvedBy e' = e_resolvedBy e) /\
      e' = set_status status (e_resolvedAt e') (e_resolvedBy e') e) /\
  getEscalation id (handleEscalationTake env id ws w)
    = Some (set_status "in-progress" (e_resolvedAt e) (e_resolvedBy e) e) /\
  (forall p w0, e_resolvedAt (fst (createEscalation env p w0)) = None /\
                e_resolvedBy (fst (createEscalation env p w0)) = None /\
                e_status (fst (createEscalation env p w0)) = "pending").
Proof.
  intros G. split; [|split].
  - rewrite (updateEscalationStatus_found env id status resolvedBy w e G).
    destruct (String.eqb_spec status "resolved") as [E|N]; simpl;
      eexists; (split; [reflexivity|]);
      unfold getEscalation; simpl; rewrite JsMapFacts.get_set_same;
      repeat split; try reflexivity; intros; congruence.
  - unfold handleEscalationTake.
    rewrite (updateEscalationStatus_found env id "in-progress" None w e G). simpl.
    unfold getEscalation, broadcast.
    destruct (wssInstance _); simpl; now rewrite JsMapFacts.get_set_same.
  - intros p w0. rewrite createEscalation_record. repeat split.
Qed.

(** C5, on the example run. *)
Lemma updateEscalationStatus_sets_status_witness :
  option_map e_status (getEscalation (e_id escalation1) world_s1_resolved)
    = Some "resolved" /\
  option_map e_status
    (getEscalation (e_id escalation1)
       (handleEscalationTake env0 (e_id escalation1) 2 world_s1_resolved))
    = Some "in-progress".
Proof.
  split; [reflexivity|].
  destruct (updateEscalationStatus_sets_status env0 (e_id escalation1) "in-progress"
              None 2 world_s1_resolved
              (set_status "resolved" (Some "2026-01-01T00:00:00.5Z") (Some "agent-7")
                          escalation1) eq_refl) as (_ & T & _).
  rewrite T. reflexivity.
Defined.

(** ** C6: the statistics of an escalation *)

Lemma sum_count_scores history : forall sum n,
  Design.sum_count history sum n =
    (fold_left PrimFloat.add (confidenceScoresOf history) sum,
     n + List.length (confidenceScoresOf history)).
Proof.
  unfold confidenceScoresOf, userMessagesOf, sender_is, Design.counts.
  induction history as [|m rest IH]; intros sum n; simpl.
  - now rewrite Nat.add_0_r.
  - unfold Design.counts. destruct (String.eqb (m_sender m) "user"); simpl.
    + destruct (m_confidence m); simpl; rewrite IH; [f_equal; lia|reflexivity].
    + apply IH.
Qed.

Lemma avgConfidence_design history :
  calculatedAvgConfidenceOf (confidenceScoresOf history) = Design.avgConfidence history.
Proof.
  unfold Design.avgConfidence, calculatedAvgConfidenceOf.
  rewrite sum_count_scores. simpl.
  now destruct (List.length (confidenceScoresOf history)).
Qed.

Lemma lowConfidenceCount_design history :
  lowConfidenceCountOf (confidenceScoresOf history) = Design.lowConfidenceCount history.
Proof.
  unfold lowConfidenceCountOf, confidenceScoresOf, userMessagesOf, sender_is.
  induction history as [|m rest IH]; simpl; [reflexivity|].
  unfold Design.counts. destruct (String.eqb (m_sender m) "user"); simpl; [|exact IH].
  destruct (m_confidence m) as [c|]; simpl; [|exact IH].
  destruct (PrimFloat.ltb c 0.7%float); simpl; now rewrite IH.
Qed.

(** C6.  The statistics [createEscalation] files are computed from the
    history it is given: the average confidence is the mean of the
    confidences of the turns of sender "user" whose confidence is not null
    ([null] when there is none), and the low-confidence count is the number
    of those turns whose confidence is below 0.70.  When no average is
    passed in, the escalation's own [avgConfidence] is that mean. *)
Theorem createEscalation_stats (env : Env) (p : EscalationParams) (w : World) :
  st_avgConfidence (e_stats (fst (createEscalation env p w)))
    = Design.avgConfidence (history_given p w) /\
  st_lowConfidenceCount (e_stats (fst (createEscalation env p w)))
    = Design.lowConfidenceCount (history_given p w) /\
  (p_avgConfidence p = None ->
   e_avgConfidence (fst (createEscalation env p w))
     = Design.avgConfidence (history_given p w)).
Proof.
  rewrite createEscalation_record. simpl.
  rewrite avgConfidence_design, lowConfidenceCount_design.
  repeat split. now intros ->.
Qed.

(** C6, on the example run. *)
Lemma createEscalation_stats_witness :
  p_avgConfidence params_four = None /\
  e_avgConfidence (fst (createEscalation env0 params_four world_s1))
    = Some ((0.9 + 0.5 + 0.3) / 3)%float /\
  st_avgConfidence (e_stats (fst (createEscalation env0 params_four world_s1)))
    = Some ((0.9 + 0.5 + 0.3) / 3)%float /\
  st_lowConfidenceCount (e_stats (fst (createEscalation env0 params_four world_s1))) = 2.
Proof.
  destruct (createEscalation_stats env0 params_four world_s1) as (A & L & E).
  split; [reflexivity|].
  rewrite (E eq_refl), A, L. repeat split; reflexivity.
Defined.

(** ** C10: a confidence of 0 *)




(** The score 0 is falsy. *)
Example zero_is_falsy :
  Js.truthy_number 0%float = false /\ Js.or_null_number (Some 0%float) = None.
Proof. split; reflexivity. Qed.



(** ** C9: the voice client's control signals *)

(** C9.  With the voicebot page's state-change handler registered, the
    control signal "started_talking" leaves the call state at
    "listening", whatever the state was and whatever the other callbacks
    of the service are; in particular the state is not "speaking" after
    the signal. *)
Theorem started_talking_listens (svc : Client.VoiceSocketService) (p : Client.Page) :
  Client.botState
    (Client.handleDataChannelMessage
       (Client.onStateChange Client.pageStateChange svc)
       (Client.mkChannelMessage "log" (Client.Text "started_talking")) p)
    = "listening" /\
  Client.botState
    (Client.handleDataChannelMessage
       (Client.onStateChange Client.pageStateChange svc)
       (Client.mkChannelMessage "log" (Client.Text "started_talking")) p)
    <> "speaking".
Proof.
  assert (E : Client.botState
                (Client.handleDataChannelMessage
                   (Client.onStateChange Client.pageStateChange svc)
                   (Client.mkChannelMessage "log" (Client.Text "started_talking")) p)
              = "listening") by reflexivity.
  split; [exact E|]. rewrite E. discriminate.
Qed.

Example barge_in_while_speaking :
  Client.handleDataChannelMessage
    (Client.onStateChange Client.pageStateChange
       (Client.mkService None None None (fun _ p => p)))
    (Client.mkChannelMessage "log" (Client.Text "started_talking"))
    (Client.mkPage "speaking" true None)
  = Client.mkPage "listening" true None.
Proof. reflexivity. Qed.

(** ** The handlers leave the network as it is *)

Section HandlerFacts.

Variable env : Env.

Lemma same_registry_refl w : same_registry w w.
Proof. repeat split. Qed.

Lemma same_registry_trans w1 w2 w3 :
  same_registry w1 w2 -> same_registry w2 w3 -> same_registry w1 w3.
Proof.
  unfold same_registry. intros (A1 & A2 & A3 & A4 & A5 & A6)
                               (B1 & B2 & B3 & B4 & B5 & B6).
  rewrite B1, B2, B3, B4, B5, B6. repeat split; assumption.
Qed.

Lemma addChatMessage_frame id m w : same_registry w (addChatMessage env id m w).
Proof.
  destruct (JsMap.get id (activeSessions w)) as [s|] eqn:G.
  - destruct (addChatMessage_live env id m w s G) as (_ & F).
    unfold same_registry. tauto.
  - unfold addChatMessage. rewrite G. apply same_registry_refl.
Qed.

Lemma appendAll_frame id msgs : forall w, same_registry w (appendAll env id msgs w).
Proof.
  unfold appendAll. induction msgs as [|m msgs IH]; intros w; cbn [fold_left].
  - apply same_registry_refl.
  - eapply same_registry_trans; [apply addChatMessage_frame|apply IH].
Qed.

Lemma sendToClient_fields ws data w :
  let w' := sendToClient ws data w in
  activeSessions w' = activeSessions w /\
  sessionClients w' = sessionClients w /\
  escalatedCalls w' = escalatedCalls w /\
  arrays w' = arrays w /\
  wssInstance w' = wssInstance w /\
  readyState w' = readyState w /\
  wire w' = wire w ++ (if is_open w ws then [(ws, data)] else []).
Proof.
  unfold sendToClient. destruct (is_open w ws); simpl; repeat split.
  now rewrite app_nil_r.
Qed.

Lemma broadcast_fields data w :
  let w' := broadcast data w in
  activeSessions w' = activeSessions w /\
  sessionClients w' = sessionClients w /\
  escalatedCalls w' = escalatedCalls w /\
  arrays w' = arrays w /\
  wssInstance w' = wssInstance w /\
  readyState w' = readyState w /\
  wire w' = wire w ++
            match wssInstance w with
            | Some clients =>
                map (fun client => (client, data)) (filter (is_open w) clients)
            | None => []
            end.
Proof.
  unfold broadcast. destruct (wssInstance w) eqn:E; simpl; repeat split;
    try assumption.
  now rewrite app_nil_r.
Qed.

Lemma is_open_ext w w' : readyState w' = readyState w -> is_open w' = is_open w.
Proof. unfold is_open. now intros ->. Qed.

End HandlerFacts.

(** ** C1: one escalation per session *)

(** C1, counterexample.  "s1" is live and its only escalation is resolved,
    so the registry holds no escalation that is not resolved; [ESCALATE]
    for "s1" is answered with [ESCALATION_EXISTS] for that escalation and
    files nothing. *)
Lemma escalate_after_resolve_rejected :
  hasSession "s1" world_s1_resolved = true /\
  getPendingEscalations world_s1_resolved = [] /\
  handleEscalation env0 escalate_plain 1 (Some "s1") world_s1_resolved
    = (None,
       with_wire (wire world_s1_resolved ++
                  [(1, ESCALATION_EXISTS "esc_176722560002_k3x9q3")])
                 world_s1_resolved).
Proof. repeat split; reflexivity. Qed.

(** The first escalation of a session, by the order of creation. *)
Lemma getEscalationBySessionId_some id w e :
  getEscalationBySessionId id w = Some e ->
  In e (JsMap.values (escalatedCalls w)) /\ e_sessionId e = id.
Proof.
  unfold getEscalationBySessionId. intros H.
  apply find_some in H as [I E]. split; [assumption|now apply String.eqb_eq].
Qed.

Lemma getEscalationBySessionId_none id w :
  getEscalationBySessionId id w = None <->
  forall e, In e (JsMap.values (escalatedCalls w)) -> e_sessionId e <> id.
Proof.
  unfold getEscalationBySessionId. split.
  - intros H e I. apply String.eqb_neq. exact (find_none _ _ H e I).
  - intros H. destruct (find _ _) as [e|] eqn:F; [|reflexivity].
    apply find_some in F as [I E]. apply String.eqb_eq in E. now destruct (H e I).
Qed.

(** Without a live session the answer is [ERROR] and nothing else changes. *)
Lemma handleEscalation_no_session (env : Env) (message : EscalateMsg)
      (ws : WebSocket) (sessionId : option string) (w : World) :
  active_session sessionId w = None ->
  handleEscalation env message ws sessionId w
    = (None, sendToClient ws (ERROR "No active session") w).
Proof. intros H. unfold handleEscalation. now rewrite H. Qed.

(** C1, as the code has it.  For a live session, [ESCALATE] is rejected
    exactly when the registry holds an escalation of that session,
    whatever its status: the answer is [ESCALATION_EXISTS] with the ID of
    the first such escalation, sent to the requesting connection, and the
    world is otherwise as it was.  When the registry holds none, an
    escalation of status "pending" is filed under its ID,
    [ESCALATION_TRIGGERED] is sent to the requesting connection and
    [ESCALATION_NEW] to every open connection of the server. *)
Theorem handleEscalation_exists_iff_any_record (env : Env) (message : EscalateMsg)
        (ws : WebSocket) (sessionId : option string) (id : string) (w : World) :
  active_session sessionId w = Some id ->
  (fst (handleEscalation env message ws sessionId w) = None <->
   exists e, In e (JsMap.values (escalatedCalls w)) /\ e_sessionId e = id) /\
  (forall e, getEscalationBySessionId id w = Some e ->
     handleEscalation env message ws sessionId w
       = (None, sendToClient ws (ESCALATION_EXISTS (e_id e)) w) /\
     escalatedCalls (snd (handleEscalation env message ws sessionId w))
       = escalatedCalls w) /\
  (getEscalationBySessionId id w = None ->
   exists esc w',
     handleEscalation env message ws sessionId w = (Some esc, w') /\
     e_status esc = "pending" /\
     e_sessionId esc = id /\
     getEscalation (e_id esc) w' = Some esc /\
     wire w' =
       wire w ++
       (if is_open w ws
        then [(ws, ESCALATION_TRIGGERED (e_id esc) "Connecting you to an agent...")]
        else []) ++
       match wssInstance w with
       | Some clients =>
           map (fun client =>
                  (client, ESCALATION_NEW esc (array_read (e_history esc) (arrays w'))))
               (filter (is_open w) clients)
       | None => []
       end).
Proof.
  intros Hact.
  assert (Hsome : forall e, getEscalationBySessionId id w = Some e ->
            handleEscalation env message ws sessionId w
              = (None, sendToClient ws (ESCALATION_EXISTS (e_id e)) w)).
  { intros e H. unfold handleEscalation. now rewrite Hact, H. }
  assert (Hnone : getEscalationBySessionId id w = None ->
    exists esc w',
     handleEscalation env message ws sessionId w = (Some esc, w') /\
     e_status esc = "pending" /\
     e_sessionId esc = id /\
     getEscalation (e_id esc) w' = Some esc /\
     wire w' =
       wire w ++
       (if is_open w ws
        then [(ws, ESCALATION_TRIGGERED (e_id esc) "Connecting you to an agent...")]
        else []) ++
       match wssInstance w with
       | Some clients =>
           map (fun client =>
                  (client, ESCALATION_NEW esc (array_read (e_history esc) (arrays w'))))
               (filter (is_open w) clients)
       | None => []
       end).
  { intros H. unfold handleEscalation. rewrite Hact, H.
    match goal with
    | |- context [createEscalation env ?P ?W] =>
        pose proof (createEscalation_record env P W) as R;
        pose proof (createEscalation_world env P W) as F;
        destruct (createEscalation env P W) as [esc w1] eqn:CE;
        assert (A : same_registry w W)
          by (destruct (em_fullHistory message);
              [apply appendAll_frame|apply same_registry_refl])
    end.
    cbn [fst snd] in R, F. cbv zeta in F.
    destruct F as (F1 & _ & _ & _ & F5 & F6 & F7).
    destruct A as (_ & _ & _ & A4 & A5 & A6).
    match goal with
    | |- context [broadcast ?D (sendToClient ws ?T w1)] =>
        pose proof (sendToClient_fields ws T w1) as S;
        pose proof (broadcast_fields D (sendToClient ws T w1)) as B
    end.
    cbv zeta in S, B.
    destruct S as (_ & _ & S3 & S4 & S5 & S6 & S7).
    destruct B as (_ & _ & B3 & B4 & B5 & B6 & B7).
    eexists _, _. split; [reflexivity|].
    split; [now rewrite R|]. split; [now rewrite R|]. split.
    - unfold getEscalation. rewrite B3, S3, F1. apply JsMapFacts.get_set_same.
    - rewrite B7, S7, S5, F5, F7, A4, A6, B4, <- app_assoc.
      rewrite (is_open_ext _ _ S6), (is_open_ext _ _ F6), (is_open_ext _ _ A5).
      reflexivity. }
  split; [|split].
  - destruct (getEscalationBySessionId id w) as [e|] eqn:G.
    + rewrite (Hsome e eq_refl). simpl. split; [|reflexivity].
      intros _. exists e. now apply getEscalationBySessionId_some.
    + destruct (Hnone eq_refl) as (esc & w' & -> & _). simpl. split; [discriminate|].
      intros (e & I & E). exfalso.
      exact (proj1 (getEscalationBySessionId_none id w) G e I E).
  - intros e H. rewrite (Hsome e H). split; [reflexivity|].
    simpl. apply sendToClient_fields.
  - exact Hnone.
Qed.

(** C1, on the example run. *)
Lemma handleEscalation_exists_iff_any_record_witness :
  active_session (Some "s1") world_s1_hi = Some "s1" /\
  getEscalationBySessionId "s1" world_s1_hi = None /\
  (exists esc w',
      handleEscalation env0 escalate_plain 1 (Some "s1") world_s1_hi = (Some esc, w') /\
      e_status esc = "pending") /\
  handleEscalation env0 escalate_plain 1 (Some "s1") world_s1_escalated
    = (None, sendToClient 1 (ESCALATION_EXISTS (e_id escalation1)) world_s1_escalated).
Proof.
  split; [reflexivity|]. split; [reflexivity|].
  destruct (handleEscalation_exists_iff_any_record env0 escalate_plain 1 (Some "s1")
              "s1" world_s1_hi eq_refl) as (_ & _ & N).
  destruct (handleEscalation_exists_iff_any_record env0 escalate_plain 1 (Some "s1")
              "s1" world_s1_escalated eq_refl) as (_ & E & _).
  split.
  - destruct (N eq_refl) as (esc & w' & H & P & _). now exists esc, w'.
  - apply (E escalation1). reflexivity.
Defined.

(** ** C3: the history of an escalation *)

(** C3, counterexample.  "s1" is escalated with one turn in its history
    and no history in the [ESCALATE] message; a turn is then appended to
    "s1".  The escalation record is the same, and its history has two
    turns. *)
Lemma escalation_history_is_live :
  getEscalation (e_id escalation1) world_s1_escalated = Some escalation1 /\
  map m_text (array_read (e_history escalation1) (arrays world_s1_escalated))
    = ["hi"] /\
  getEscalation (e_id escalation1) world_s1_escalated_more = Some escalation1 /\
  map m_text (array_read (e_history escalation1) (arrays world_s1_escalated_more))
    = ["hi"; "are you still there?"] /\
  array_read (e_history escalation1) (arrays world_s1_escalated_more)
    <> array_read (e_history escalation1) (arrays world_s1_escalated).
Proof.
  repeat split; try reflexivity. vm_compute. discriminate.
Qed.

Section EscalationHistory.

Variable env : Env.

Lemma addChatMessage_arrays_length id m w :
  List.length (arrays (addChatMessage env id m w)) = List.length (arrays w).
Proof.
  destruct (JsMap.get id (activeSessions w)) as [s|] eqn:G.
  - destruct (addChatMessage_live env id m w s G) as (A & _).
    now rewrite A, array_push_length.
  - unfold addChatMessage. now rewrite G.
Qed.

Lemma appendAll_arrays_length id msgs : forall w,
  List.length (arrays (appendAll env id msgs w)) = List.length (arrays w).
Proof.
  unfold appendAll. induction msgs as [|m msgs IH]; intros w; cbn [fold_left].
  - reflexivity.
  - now rewrite IH, addChatMessage_arrays_length.
Qed.

Lemma handleEscalation_creates message ws sessionId id w :
  active_session sessionId w = Some id ->
  getEscalationBySessionId id w = None ->
  let created :=
    createEscalation env (params_of message id w)
                     (world_before_create env message id w) in
  handleEscalation env message ws sessionId w =
    (Some (fst created),
     broadcast
       (ESCALATION_NEW (fst created)
                       (array_read (e_history (fst created)) (arrays (snd created))))
       (sendToClient ws
          (ESCALATION_TRIGGERED (e_id (fst created)) "Connecting you to an agent...")
          (snd created))).
Proof.
  intros A N. unfold handleEscalation. rewrite A, N. cbv zeta.
  unfold params_of, world_before_create, appendAll.
  destruct (createEscalation env _ _) as [esc w1] eqn:CE. simpl.
  f_equal. f_equal. f_equal.
  unfold sendToClient. now destruct (is_open w1 ws).
Qed.

Lemma handleEscalation_returns message ws sessionId id w esc :
  active_session sessionId w = Some id ->
  fst (handleEscalation env message ws sessionId w) = Some esc ->
  getEscalationBySessionId id w = None.
Proof.
  intros A H. destruct (getEscalationBySessionId id w) as [e|] eqn:G; [|reflexivity].
  unfold handleEscalation in H. now rewrite A, G in H.
Qed.

End EscalationHistory.

(** ** What every world of the session store satisfies *)

Lemma registry_coherent_kept (env : Env) (w : World) :
  registry_coherent w ->
  (forall id ty ws, registry_coherent (snd (createSession env id ty ws w))) /\
  (forall id, registry_coherent (deleteSession id w)) /\
  (forall id m, registry_coherent (addChatMessage env id m w)) /\
  (forall id c, registry_coherent (addAudioChunk id c w)) /\
  (forall id, registry_coherent (snd (getAndClearAudioChunks id w))) /\
  (forall p, registry_coherent (snd (createEscalation env p w))).
Proof.
  unfold registry_coherent. intros C. repeat split.
  - intros id ty ws. simpl. now apply JsMapFacts.keys_set_congr.
  - intros id. simpl. now apply JsMapFacts.keys_delete_congr.
  - intros id m. destruct (addChatMessage_frame env id m w) as (-> & -> & _).
    exact C.
  - intros id c. unfold addAudioChunk.
    destruct (JsMap.get id (activeSessions w)) eqn:G; [|exact C]. simpl.
    rewrite JsMapFacts.keys_set_present; [exact C|].
    unfold JsMap.has. now rewrite G.
  - intros id. unfold getAndClearAudioChunks.
    destruct (JsMap.get id (activeSessions w)) eqn:G; [|exact C]. simpl.
    rewrite JsMapFacts.keys_set_present; [exact C|].
    unfold JsMap.has. now rewrite G.
  - intros p. destruct (createEscalation_world env p w) as (_ & _ & -> & -> & _).
    exact C.
Qed.

Lemma histories_allocated_kept (env : Env) (w : World) :
  histories_allocated w ->
  (forall id ty ws, histories_allocated (snd (createSession env id ty ws w))) /\
  (forall id, histories_allocated (deleteSession id w)) /\
  (forall id m, histories_allocated (addChatMessage env id m w)) /\
  (forall p, histories_allocated (snd (createEscalation env p w))).
Proof.
  unfold histories_allocated. intros H. repeat split.
  - intros id ty ws k s. simpl. rewrite length_app. simpl. intros G.
    apply JsMapFacts.get_set_cases in G as [[_ ->]|G]; simpl; [lia|].
    specialize (H k s G). lia.
  - intros id k s. simpl. intros G. apply JsMapFacts.get_delete_some in G.
    exact (H k s G).
  - intros id m k s. rewrite addChatMessage_arrays_length.
    destruct (addChatMessage_frame env id m w) as (-> & _). apply H.
  - intros p k s.
    destruct (createEscalation_world env p w) as (_ & A & -> & _). rewrite A.
    intros G. specialize (H k s G).
    destruct (p_history p) as [[r|a]|]; rewrite ?length_app; simpl; lia.
Qed.

(** C3, as the code has it.  The history of an escalation is the array
    [handleEscalation] passes on.  When the [ESCALATE] message brings a
    history of its own, that array is the record's history and a turn
    appended to any session afterwards leaves it as it was.  When the
    message brings none, the record's history is the session's own history
    array, not a copy: a turn appended to the session afterwards is
    appended to the history of the escalation too. *)
Theorem escalation_history_own_or_shared (env : Env) (message : EscalateMsg)
        (ws : WebSocket) (sessionId : option string) (id : string) (w : World)
        (s : Session) (esc : Escalation) :
  active_session sessionId w = Some id ->
  getSession id w = Some s ->
  histories_allocated w ->
  fst (handleEscalation env message ws sessionId w) = Some esc ->
  (forall fullHistory, em_fullHistory message = Some fullHistory ->
     array_read (e_history esc)
                (arrays (snd (handleEscalation env message ws sessionId w)))
       = fullHistory /\
     forall id' m,
       array_read (e_history esc)
                  (arrays (addChatMessage env id' m
                             (snd (handleEscalation env message ws sessionId w))))
       = fullHistory) /\
  (em_fullHistory message = None ->
     e_history esc = s_chatHistory s /\
     array_read (e_history esc)
                (arrays (snd (handleEscalation env message ws sessionId w)))
       = array_read (s_chatHistory s) (arrays w) /\
     forall m,
       array_read (e_history esc)
                  (arrays (addChatMessage env id m
                             (snd (handleEscalation env message ws sessionId w))))
       = array_read (s_chatHistory s) (arrays w) ++
         [fst (stored_turn env m (snd (handleEscalation env message ws sessionId w)))]).
Proof.
  intros A G WF H.
  pose proof (handleEscalation_returns env message ws sessionId id w esc A H) as N.
  pose proof (handleEscalation_creates env message ws sessionId id w A N) as C.
  cbv zeta in C. rewrite C in H |- *. cbn [fst snd] in H |- *.
  injection H as <-.
  set (P := params_of message id w) in *.
  set (W := world_before_create env message id w) in *.
  pose proof (createEscalation_record env P W) as R.
  pose proof (createEscalation_world env P W) as F. cbv zeta in F.
  destruct F as (_ & F2 & F3 & _).
  set (created := createEscalation env P W) in *.
  match goal with
  | |- context [broadcast ?D (sendToClient ws ?T (snd created))] =>
      pose proof (sendToClient_fields ws T (snd created)) as S;
      pose proof (broadcast_fields D (sendToClient ws T (snd created))) as B;
      set (w' := broadcast D (sendToClient ws T (snd created))) in *
  end.
  cbv zeta in S, B.
  destruct S as (S1 & _ & _ & S4 & _). destruct B as (B1 & _ & _ & B4 & _).
  assert (Hs : activeSessions w' = activeSessions W) by now rewrite B1, S1, F3.
  assert (Ha : arrays w' = arrays (snd created)) by now rewrite B4, S4.
  assert (HW : activeSessions W = activeSessions w /\
               List.length (arrays W) = List.length (arrays w)).
  { unfold W, world_before_create. destruct (em_fullHistory message) as [fh|].
    - split; [apply appendAll_frame|apply appendAll_arrays_length].
    - split; reflexivity. }
  destruct HW as (HW1 & HW2).
  split.
  - intros fh E.
    assert (Rh : e_history (fst created) = List.length (arrays W)).
    { rewrite R. unfold P, params_of. simpl. now rewrite E. }
    assert (Fa : arrays (snd created) = arrays W ++ [fh]).
    { rewrite F2. unfold P, params_of. simpl. now rewrite E. }
    assert (Rd : array_read (e_history (fst created)) (arrays w') = fh).
    { rewrite Ha, Rh, Fa. apply array_read_alloc. }
    split; [exact Rd|].
    intros id' m.
    destruct (JsMap.get id' (activeSessions w')) as [s'|] eqn:G'.
    + destruct (addChatMessage_live env id' m w' s' G') as (A' & _).
      rewrite A', array_read_push_other; [exact Rd|].
      rewrite Hs, HW1 in G'. specialize (WF id' s' G'). rewrite Rh, HW2. lia.
    + unfold addChatMessage. rewrite G'. exact Rd.
  - intros E.
    assert (EW : W = w) by (unfold W, world_before_create; now rewrite E).
    assert (Rh : e_history (fst created) = s_chatHistory s).
    { rewrite R. unfold P, params_of, getSessionHistory. simpl.
      unfold getSession in G. now rewrite E, G. }
    assert (Fa : arrays (snd created) = arrays w).
    { rewrite F2. unfold P, params_of, getSessionHistory. simpl.
      unfold getSession in G. now rewrite E, G, EW. }
    split; [exact Rh|]. split; [now rewrite Ha, Fa, Rh|].
    intros m. unfold getSession in G.
    assert (G' : JsMap.get id (activeSessions w') = Some s) by now rewrite Hs, HW1.
    destruct (addChatMessage_live env id m w' s G') as (A' & _).
    rewrite A', Rh, array_read_push_same, Ha, Fa; [reflexivity|].
    rewrite Ha, Fa. exact (WF id s G).
Qed.

(** C3, on the example run. *)
Lemma escalation_history_own_or_shared_witness :
  active_session (Some "s1") world_s1_hi = Some "s1" /\
  histories_allocated world_s1_hi /\
  (forall esc id' m,
      fst (handleEscalation env0 escalate_with_history 1 (Some "s1") world_s1_hi)
        = Some esc ->
      array_read (e_history esc)
        (arrays (addChatMessage env0 id' m
                   (snd (handleEscalation env0 escalate_with_history 1 (Some "s1")
                                          world_s1_hi))))
        = [user_says "hello" (Some 0.8%float)]) /\
  map m_text
      (array_read (e_history escalation1)
         (arrays (addChatMessage env0 "s1" (user_says "are you still there?" None)
                    (snd (handleEscalation env0 escalate_plain 1 (Some "s1")
                                           world_s1_hi)))))
    = ["hi"; "are you still there?"].
Proof.
  assert (WF : histories_allocated world_s1_hi).
  { intros k s. vm_compute.
    destruct k as [|[[] [] [] [] [] [] [] []] [|[[] [] [] [] [] [] [] []] [|]]];
      try discriminate.
    intros [= <-]. lia. }
  split; [reflexivity|]. split; [exact WF|]. split.
  - intros esc id' m H.
    destruct (escalation_history_own_or_shared env0 escalate_with_history 1 (Some "s1")
                "s1" world_s1_hi
                (mkSession "s1" (Some "chat") "2026-01-01T00:00:00.0Z" [] 0) esc
                eq_refl eq_refl WF H) as (O & _).
    apply (O _ eq_refl).
  - destruct (escalation_history_own_or_shared env0 escalate_plain 1 (Some "s1")
                "s1" world_s1_hi
                (mkSession "s1" (Some "chat") "2026-01-01T00:00:00.0Z" [] 0) escalation1
                eq_refl eq_refl WF eq_refl) as (_ & Sh).
    destruct (Sh eq_refl) as (_ & _ & Sh3).
    rewrite Sh3. reflexivity.
Defined.
